(** * ServiceNow change-management adapter (src/main.js)

    A shallow embedding of the [ServiceNowAdapter] class: its constructor
    state, [connect], [healthcheck], [emitOffline], [emitOnline],
    [emitStatus], [getRecord] and [postRecord].

    JavaScript objects that can be mutated (those the adapter allocates,
    and those that exist before a call) live in an explicit heap and are
    passed around by reference; everything a run can be
    observed to do (log lines, listener notifications, callback invocations)
    is appended to a trace; an uncaught exception ends the run. *)

From Stdlib Require Import ZArith Ascii String DecimalString.
From stdpp Require Import base strings list.

Local Open Scope string_scope.
Local Open Scope list_scope.
Local Set Warnings "-register-all".

(** ** Values *)

(** What [JSON.parse] builds.  Numbers are only ever copied or tested for
    truthiness by this program; integers stand for them.  An object lists
    its own members, each key once. *)
Inductive json : Type :=
| JNull
| JBool (b : bool)
| JNumber (n : Z)
| JString (s : string)
| JArray (elems : list json)
| JObject (members : list (string * json)).

(** Heap addresses: the position of an object in the allocation history. *)
Definition loc := nat.

(** A JavaScript value as the adapter sees it: [undefined]; immutable data
    (primitives and trees received from the connector or built by
    [JSON.parse]); a reference to an object or array in the heap, allocated
    by the adapter or there before the call; or an opaque function, class or
    module of the host. *)
Inductive jsvalue : Type :=
| Undefined
| Data (j : json)
| Ref (l : loc)
| Native (name : string).

(** The sentinel strings of [getRecord] and [postRecord]. *)
Definition Missing_Data_Results : jsvalue := Data (JString "Missing Data Results").
Definition Missing_Data_Body : jsvalue := Data (JString "Missing Data Body").

(** [if (v)]: JavaScript's truthiness. *)
Definition truthy (v : jsvalue) : bool :=
  match v with
  | Undefined => false
  | Data JNull => false
  | Data (JBool b) => b
  | Data (JNumber n) => negb (n =? 0)%Z
  | Data (JString s) => negb (String.eqb s "")
  | Data (JArray _) | Data (JObject _) => true
  | Ref _ => true
  | Native _ => true
  end.

(** The canonical record shape: the literal assigned to [recordData]. *)
Record ChangeRecord : Type := mkChangeRecord {
  change_ticket_number : jsvalue;
  active : jsvalue;
  priority : jsvalue;
  description : jsvalue;
  work_start : jsvalue;
  work_end : jsvalue;
  change_ticket_key : jsvalue
}.

Definition null : jsvalue := Data JNull.

Definition null_record : ChangeRecord :=
  mkChangeRecord null null null null null null null.

(** Property assignments [o.f = v], one per field. *)
Definition set_change_ticket_number (v : jsvalue) (r : ChangeRecord) : ChangeRecord :=
  let '(mkChangeRecord _ a p d ws we k) := r in mkChangeRecord v a p d ws we k.
Definition set_active (v : jsvalue) (r : ChangeRecord) : ChangeRecord :=
  let '(mkChangeRecord n _ p d ws we k) := r in mkChangeRecord n v p d ws we k.
Definition set_priority (v : jsvalue) (r : ChangeRecord) : ChangeRecord :=
  let '(mkChangeRecord n a _ d ws we k) := r in mkChangeRecord n a v d ws we k.
Definition set_description (v : jsvalue) (r : ChangeRecord) : ChangeRecord :=
  let '(mkChangeRecord n a p _ ws we k) := r in mkChangeRecord n a p v ws we k.
Definition set_work_start (v : jsvalue) (r : ChangeRecord) : ChangeRecord :=
  let '(mkChangeRecord n a p d _ we k) := r in mkChangeRecord n a p d v we k.
Definition set_work_end (v : jsvalue) (r : ChangeRecord) : ChangeRecord :=
  let '(mkChangeRecord n a p d ws _ k) := r in mkChangeRecord n a p d ws v k.
Definition set_change_ticket_key (v : jsvalue) (r : ChangeRecord) : ChangeRecord :=
  let '(mkChangeRecord n a p d ws we _) := r in mkChangeRecord n a p d ws we v.

(** ** Heap, trace and the monad of a run *)

(** Objects the adapter allocates: a record built from the [recordData]
    literal, an array ([outRecords]), the literal [{ id: this.id }] of
    [emitStatus], and the empty literal [{}]. *)
Inductive hobject : Type :=
| ObjRecord (r : ChangeRecord)
| ObjArray (elems : list jsvalue)
| ObjIdentity (id : string)
| ObjEmpty.

Inductive level : Type := log_info | log_warn | log_error.

(** Observable events, in the order they happen. *)
Inductive event : Type :=
| EvLog (lv : level) (msg : string)
| EvNotify (listener : nat) (status : string) (arg : jsvalue)
| EvCallback (args : list jsvalue).

Record state : Type := mkState {
  heap : list hobject;
  trace : list event
}.

Inductive exn : Type := TypeError | ReferenceError | SyntaxError.

Inductive outcome (A : Type) : Type :=
| Done (a : A)
| Throw (e : exn).
Arguments Done {A} a.
Arguments Throw {A} e.

Definition M (A : Type) : Type := state -> outcome A * state.

Definition ret {A} (a : A) : M A := fun s => (Done a, s).

Definition bind {A B} (m : M A) (k : A -> M B) : M B :=
  fun s => match m s with
           | (Done a, s') => k a s'
           | (Throw e, s') => (Throw e, s')
           end.

Definition throw {A} (e : exn) : M A := fun s => (Throw e, s).

Declare Scope js_scope.
Delimit Scope js_scope with js.
Notation "x <- m ;; k" := (bind m (fun x => k))
  (at level 100, m at next level, k at level 200, right associativity) : js_scope.
Notation "m ;; k" := (bind m (fun _ => k))
  (at level 100, k at level 200, right associativity) : js_scope.
Local Open Scope js_scope.

(** An object or array literal: a new object at a new address. *)
Definition alloc (o : hobject) : M loc :=
  fun s => (Done (length (heap s)), mkState (heap s ++ [o]) (trace s)).

Definition tell (e : event) : M unit :=
  fun s => (Done tt, mkState (heap s) (trace s ++ [e])).

(** The host's global logger [log].  A line is recorded by its level and
    its fixed text.  The GET and POST lines interpolate a
    [JSON.stringify(...)], which is evaluated before the line is written:
    that call is a step of its own in [getRecord] and [postRecord], and only
    its text is left out of the recorded line. *)
Definition log (lv : level) (msg : string) : M unit := tell (EvLog lv msg).

(** [o.f = v] on the record at [l], through the field's setter. *)
Definition assign (l : loc) (set : jsvalue -> ChangeRecord -> ChangeRecord)
    (v : jsvalue) : M unit :=
  fun s =>
    (Done tt,
     mkState (alter (fun o => match o with
                              | ObjRecord r => ObjRecord (set v r)
                              | _ => o
                              end) l (heap s))
             (trace s)).

(** [a.push(v)] where [a] evaluated to [target]. *)
Definition push (target : jsvalue) (v : jsvalue) : M unit :=
  fun s =>
    match target with
    | Ref l =>
        match heap s !! l with
        | Some (ObjArray es) =>
            (Done tt, mkState (<[l := ObjArray (es ++ [v])]> (heap s)) (trace s))
        | _ => (Throw TypeError, s)
        end
    | _ => (Throw TypeError, s)
    end.

(** ** Reading parsed data *)

Fixpoint assoc {A} (k : string) (ms : list (string * A)) : option A :=
  match ms with
  | [] => None
  | (k', v) :: ms' => if String.eqb k k' then Some v else assoc k ms'
  end.

(** The property name of array index [i]. *)
Definition index_name (i : nat) : string :=
  NilEmpty.string_of_uint (Nat.to_uint i).

(** The own property names of an array or string of length [n]. *)
Definition indexed_own_key (n : nat) (key : string) : bool :=
  String.eqb key "length" || existsb (String.eqb key) (map index_name (seq 0 n)).

(** [o.hasOwnProperty(key)] on parsed data.  The method is inherited from
    [Object.prototype]; reading it off [null] is a TypeError, and an object
    that has a member of its own called [hasOwnProperty] shadows it with
    data, which cannot be called. *)
Definition hasOwnProperty (o : json) (key : string) : M bool :=
  match o with
  | JNull => throw TypeError
  | JObject ms =>
      match assoc "hasOwnProperty" ms with
      | Some _ => throw TypeError
      | None => ret (match assoc key ms with Some _ => true | None => false end)
      end
  | JArray es => ret (indexed_own_key (length es) key)
  | JString s => ret (indexed_own_key (String.length s) key)
  | JBool _ | JNumber _ => ret false
  end.

(** [o.name] for the member names this program reads ([result], [number],
    [active], [priority], [description], [work_start], [work_end],
    [sys_id]): none of them is defined by a built-in prototype, so the read
    finds an own member or yields [undefined]; reading off [null] is a
    TypeError. *)
Definition member (o : json) (name : string) : M jsvalue :=
  match o with
  | JNull => throw TypeError
  | JObject ms =>
      match assoc name ms with
      | Some v => ret (Data v)
      | None => ret Undefined
      end
  | _ => ret Undefined
  end.

(** [o.name] where [o] is any value [v]. *)
Definition member_of (v : jsvalue) (name : string) : M jsvalue :=
  match v with
  | Data j => member j name
  | Undefined => throw TypeError
  | _ => ret Undefined
  end.

(** [for each element, in order]. *)
Fixpoint each {A} (f : A -> M unit) (xs : list A) : M unit :=
  match xs with
  | [] => ret tt
  | x :: xs' => f x ;; each f xs'
  end.

(** [v.forEach(f)]: only an array has the method. *)
Definition forEach (v : jsvalue) (f : jsvalue -> M unit) : M unit :=
  match v with
  | Data (JArray es) => each f (map Data es)
  | _ => throw TypeError
  end.

(** ** The collaborators *)

(** The connector's success payload: an HTTP response object as the request
    library builds it, with an optional own property [body] holding the
    serialized body. *)
Record response : Type := mkResponse {
  body : option string
}.

(** The two arguments [(data, error)] the connector hands to its callback;
    [data = None] is a [null] payload. *)
Record reply : Type := mkReply {
  data : option response;
  error : jsvalue
}.

(** Modelled from the spec: connector.js is not among the sources.  A
    connector exposes [get] and [post]; each invokes its callback exactly
    once with [(data, error)], where a reported error is a truthy [error].
    The replies of the remote service are the connector's two fields. *)
Record ServiceNowConnector : Type := mkConnector {
  get_reply : reply;
  post_reply : reply
}.

(** [connector.get(callback)]. *)
Definition get (c : ServiceNowConnector)
    (callback : option response -> jsvalue -> M unit) : M unit :=
  callback (data (get_reply c)) (error (get_reply c)).

(** [connector.post(callback)]. *)
Definition post (c : ServiceNowConnector)
    (callback : option response -> jsvalue -> M unit) : M unit :=
  callback (data (post_reply c)) (error (post_reply c)).

(** [data.hasOwnProperty('body')]: a TypeError on a [null] payload. *)
Definition hasOwnProperty_body (d : option response) : M bool :=
  match d with
  | None => throw TypeError
  | Some r => ret (match body r with Some _ => true | None => false end)
  end.

(** [data.body], read after the test above succeeded. *)
Definition body_text (d : option response) : string :=
  match d with
  | Some (mkResponse (Some text)) => text
  | _ => ""
  end.

(** Modelled from the spec: the inherited EventEmitter (Node's events
    module, not among the sources).  Listeners are kept per event name in
    registration order; [emit] calls, synchronously and in that order, every
    listener currently registered for the event with the given argument;
    nothing is buffered or replayed, and with no listener nothing happens.
    The adapter emits the events named ONLINE and OFFLINE only; Node's
    special treatment of an event named error is left out. *)
Module EventEmitter.

Abbreviation listeners := (list (string * nat)) (only parsing).

Definition on (event : string) (listener : nat) (ls : listeners) : listeners :=
  ls ++ [(event, listener)].

(** The listeners registered for [event], in registration order. *)
Definition subscribers (event : string) (ls : listeners) : list nat :=
  map snd (filter (fun '(name, _) => String.eqb name event = true) ls).

Definition emit (ls : listeners) (event : string) (arg : jsvalue) : M unit :=
  each (fun l => tell (EvNotify l event arg)) (subscribers event ls).

End EventEmitter.

(** ** The adapter *)

Record adapterProperties : Type := mkProps {
  url : string;
  auth_username : string;
  auth_password : string;
  serviceNowTable : string
}.

Record ServiceNowAdapter : Type := mkAdapter {
  id : string;
  props : adapterProperties;
  connector : ServiceNowConnector;
  listeners : EventEmitter.listeners
}.

(** [constructor(id, adapterProperties)]; [remote] is the connector object
    that [new ServiceNowConnector({...})] returns. *)
Definition constructor (id : string) (adapterProperties : adapterProperties)
    (remote : ServiceNowConnector) : ServiceNowAdapter :=
  mkAdapter id adapterProperties remote [].

(** A caller's callback: any code receiving the argument list of the call. *)
Definition callback_fn : Type := list jsvalue -> M unit.

(** The callback of a caller that only observes: each call is recorded. *)
Definition observer : callback_fn := fun args => tell (EvCallback args).

(** Identifier resolution.  [scope] lists the bindings visible at the point
    of use, innermost first; an identifier bound nowhere is a
    ReferenceError. *)
Definition lookup_var (scope : list (string * jsvalue)) (x : string) : M jsvalue :=
  match assoc x scope with
  | Some v => ret v
  | None => throw ReferenceError
  end.

(** The bindings of the module: its [const]s, the class, and the names
    Node's module wrapper provides. *)
Definition module_scope : list (string * jsvalue) :=
  [("path", Native "path");
   ("ServiceNowConnector", Native "ServiceNowConnector");
   ("EventEmitter", Native "EventEmitter");
   ("ServiceNowAdapter", Native "ServiceNowAdapter");
   ("exports", Native "exports");
   ("require", Native "require");
   ("module", Native "module");
   ("__filename", Native "__filename");
   ("__dirname", Native "__dirname")].

(** The bindings of the host's global object that this file uses: IAP's
    logger and the built-in [JSON].  Nothing in the file creates a global. *)
Definition global_scope : list (string * jsvalue) :=
  [("log", Native "log"); ("JSON", Native "JSON")].

Section Adapter.

(** [JSON.parse] of the platform: [None] when it throws a SyntaxError. *)
Variable JSON_parse : string -> option json.

Definition parse (text : string) : M json :=
  match JSON_parse text with
  | Some j => ret j
  | None => throw SyntaxError
  end.

(** [JSON.stringify] of the platform, as far as a run depends on it:
    whether, in the given heap, the call returns for a value or throws a
    TypeError (as it does for a structure that reaches itself, or a
    BigInt). *)
Variable stringifiable : list hobject -> jsvalue -> bool.

(** [JSON.stringify(v)] in the template of a log line. *)
Definition JSON_stringify (v : jsvalue) : M unit :=
  fun s => if stringifiable (heap s) v then (Done tt, s) else (Throw TypeError, s).

(** [JSON.stringify(data)] on the connector's payload: [null], or a response
    whose one property is a string, for which the call always returns. *)
Definition JSON_stringify_response (d : option response) : M unit := ret tt.

Definition emitStatus (this : ServiceNowAdapter) (status : string) : M unit :=
  log log_info "Why me?" ;;
  identity <- alloc (ObjIdentity (id this)) ;;
  EventEmitter.emit (listeners this) status (Ref identity).

Definition emitOffline (this : ServiceNowAdapter) : M unit :=
  emitStatus this "OFFLINE" ;;
  log log_warn "ServiceNow: Instance is unavailable.".

Definition emitOnline (this : ServiceNowAdapter) : M unit :=
  emitStatus this "ONLINE" ;;
  log log_info "ServiceNow: Instance is available.".

Definition getRecord (this : ServiceNowAdapter) (callback : callback_fn) : M unit :=
  recordData <- alloc (ObjRecord null_record) ;;
  _ <- alloc ObjEmpty ;;                      (* let bodyData = {} *)
  _ <- alloc ObjEmpty ;;                      (* let loopData = {} *)
  outRecords <- alloc (ObjArray []) ;;
  get (connector this) (fun data error =>
    if truthy error then
      JSON_stringify error ;;
      log log_error "Error returned from GET request" ;;
      callback [error]
    else
      JSON_stringify_response data ;;
      log log_info "Response returned from GET request" ;;
      has_body <- hasOwnProperty_body data ;;
      (if has_body then
         bodyData <- parse (body_text data) ;;
         has_result <- hasOwnProperty bodyData "result" ;;
         if has_result then
           result <- member bodyData "result" ;;
           forEach result (fun item =>
             let loopData := recordData in
             v <- member_of item "number" ;;
             assign loopData set_change_ticket_number v ;;
             v <- member_of item "active" ;;
             assign loopData set_active v ;;
             v <- member_of item "priority" ;;
             assign loopData set_priority v ;;
             v <- member_of item "description" ;;
             assign loopData set_description v ;;
             v <- member_of item "work_start" ;;
             assign loopData set_work_start v ;;
             v <- member_of item "work_end" ;;
             assign loopData set_work_end v ;;
             v <- member_of item "sys_id" ;;
             assign loopData set_change_ticket_key v ;;
             push (Ref outRecords) (Ref loopData))
         else
           push (Ref outRecords) Missing_Data_Results
       else
         push (Ref outRecords) Missing_Data_Body) ;;
      callback [Ref outRecords]).

(** The bindings visible inside the callback that [postRecord] hands to
    the connector. *)
Definition postRecord_scope (recordData bodyData resultData : loc)
    (error : jsvalue) : list (string * jsvalue) :=
  [("data", Native "data"); ("error", error);
   ("recordData", Ref recordData); ("bodyData", Ref bodyData);
   ("resultData", Ref resultData); ("callback", Native "callback")]
  ++ module_scope ++ global_scope.

Definition postRecord (this : ServiceNowAdapter) (callback : callback_fn) : M unit :=
  recordData <- alloc (ObjRecord null_record) ;;
  bodyData0 <- alloc ObjEmpty ;;              (* let bodyData = {} *)
  resultData0 <- alloc ObjEmpty ;;            (* let resultData = {} *)
  post (connector this) (fun data error =>
    let scope := postRecord_scope recordData bodyData0 resultData0 error in
    if truthy error then
      JSON_stringify error ;;
      log log_error "Error returned from POST request" ;;
      callback [error]
    else
      JSON_stringify_response data ;;
      log log_info "Response returned from POST request" ;;
      has_body <- hasOwnProperty_body data ;;
      (if has_body then
         bodyData <- parse (body_text data) ;;
         has_result <- hasOwnProperty bodyData "result" ;;
         if has_result then
           resultData <- member bodyData "result" ;;
           v <- member_of resultData "number" ;;
           assign recordData set_change_ticket_number v ;;
           v <- member_of resultData "active" ;;
           assign recordData set_active v ;;
           v <- member_of resultData "priority" ;;
           assign recordData set_priority v ;;
           v <- member_of resultData "description" ;;
           assign recordData set_description v ;;
           v <- member_of resultData "work_start" ;;
           assign recordData set_work_start v ;;
           v <- member_of resultData "work_end" ;;
           assign recordData set_work_end v ;;
           v <- member_of resultData "sys_id" ;;
           assign recordData set_change_ticket_key v
         else
           outRecords <- lookup_var scope "outRecords" ;;
           push outRecords Missing_Data_Results
       else
         outRecords <- lookup_var scope "outRecords" ;;
         push outRecords Missing_Data_Body) ;;
      callback [Ref recordData]).

(** [healthcheck(callback)]; the callback is optional.  The arrow function
    handed to [getRecord] binds [result] and [error] to the first and
    second argument of the call, [undefined] when the call passes fewer. *)
Definition healthcheck (this : ServiceNowAdapter) (callback : option callback_fn) : M unit :=
  getRecord this (fun args =>
    let result := nth 0 args Undefined in
    let error := nth 1 args Undefined in
    if truthy error then
      log log_info "ServiceNow Adapter: OFFLINE" ;;
      emitOffline this ;;
      match callback with
      | Some cb => cb [error]
      | None => ret tt
      end
    else
      log log_info "ServiceNow Adapter: ONLINE" ;;
      emitOnline this ;;
      match callback with
      | Some cb => cb [result]
      | None => ret tt
      end).

Definition connect (this : ServiceNowAdapter) : M unit :=
  healthcheck this None.

End Adapter.

(** [adapter.on(event, listener)], inherited from EventEmitter. *)
Definition on (event : string) (listener : nat) (this : ServiceNowAdapter) : ServiceNowAdapter :=
  mkAdapter (id this) (props this) (connector this)
            (EventEmitter.on event listener (listeners this)).

(** ** Vocabulary of the statements *)

(** The two statuses the adapter emits, and their event names. *)
Inductive Status : Type := ONLINE | OFFLINE.

Definition status_name (st : Status) : string :=
  match st with
  | ONLINE => "ONLINE"
  | OFFLINE => "OFFLINE"
  end.

(** The two record operations and what distinguishes them. *)
Inductive method : Type := GET | POST.

Definition reply_of (m : method) (c : ServiceNowConnector) : reply :=
  match m with
  | GET => get_reply c
  | POST => post_reply c
  end.

Definition record_method (JSON_parse : string -> option json)
    (stringifiable : list hobject -> jsvalue -> bool) (m : method)
    : ServiceNowAdapter -> callback_fn -> M unit :=
  match m with
  | GET => getRecord JSON_parse stringifiable
  | POST => postRecord JSON_parse stringifiable
  end.

(** The objects a record operation allocates on entry, before the connector
    is called: the all-null template, the two [{}] and, for GET, the empty
    output array. *)
Definition entry_heap (m : method) : list hobject :=
  match m with
  | GET => [ObjRecord null_record; ObjEmpty; ObjEmpty; ObjArray []]
  | POST => [ObjRecord null_record; ObjEmpty; ObjEmpty]
  end.

Definition error_log (m : method) : event :=
  match m with
  | GET => EvLog log_error "Error returned from GET request"
  | POST => EvLog log_error "Error returned from POST request"
  end.

Definition response_log (m : method) : event :=
  match m with
  | GET => EvLog log_info "Response returned from GET request"
  | POST => EvLog log_info "Response returned from POST request"
  end.

(** The operations that report a connector failure to a caller's callback. *)
Inductive operation : Type := op_getRecord | op_postRecord | op_healthcheck.

Definition reply_for (op : operation) (c : ServiceNowConnector) : reply :=
  match op with
  | op_postRecord => post_reply c
  | op_getRecord | op_healthcheck => get_reply c
  end.

Definition run_operation (JSON_parse : string -> option json)
    (stringifiable : list hobject -> jsvalue -> bool) (op : operation)
    (this : ServiceNowAdapter) (callback : callback_fn) : M unit :=
  match op with
  | op_getRecord => getRecord JSON_parse stringifiable this callback
  | op_postRecord => postRecord JSON_parse stringifiable this callback
  | op_healthcheck => healthcheck JSON_parse stringifiable this (Some callback)
  end.

(** The record operation behind an operation: a probe is a GET. *)
Definition method_of (op : operation) : method :=
  match op with
  | op_postRecord => POST
  | op_getRecord | op_healthcheck => GET
  end.

(** The argument lists of the callback invocations recorded in a trace. *)
Definition callbacks (t : list event) : list (list jsvalue) :=
  omap (fun e => match e with EvCallback args => Some args | _ => None end) t.

(** What reading member [name] off a non-null parsed value gives: the own
    member, or [undefined]. *)
Definition field (o : json) (name : string) : jsvalue :=
  match o with
  | JObject ms =>
      match assoc name ms with
      | Some v => Data v
      | None => Undefined
      end
  | _ => Undefined
  end.

(** The field mapping table: source member to record field. *)
Definition normalize (item : json) : ChangeRecord :=
  {| change_ticket_number := field item "number";
     active := field item "active";
     priority := field item "priority";
     description := field item "description";
     work_start := field item "work_start";
     work_end := field item "work_end";
     change_ticket_key := field item "sys_id" |}.

(** The seven source members the mapping reads. *)
Definition source_fields : list string :=
  ["number"; "active"; "priority"; "description"; "work_start"; "work_end"; "sys_id"].

(** A parsed value on which [hasOwnProperty] can be called: not [null], and
    not an object with a member of its own of that name. *)
Definition inherits_hasOwnProperty (j : json) : bool :=
  match j with
  | JNull => false
  | JObject ms => match assoc "hasOwnProperty" ms with Some _ => false | None => true end
  | _ => true
  end.

(** [j] has an own property [key]. *)
Definition own_member (j : json) (key : string) : bool :=
  match j with
  | JObject ms => match assoc key ms with Some _ => true | None => false end
  | JArray es => indexed_own_key (length es) key
  | JString s => indexed_own_key (String.length s) key
  | _ => false
  end.

(** The two ways a successful response misses its data, with the sentinel
    string the code has for each. *)
Inductive missing_data (JSON_parse : string -> option json) : response -> jsvalue -> Prop :=
| missing_body :
    missing_data JSON_parse (mkResponse None) Missing_Data_Body
| missing_result text j :
    JSON_parse text = Some j ->
    inherits_hasOwnProperty j = true ->
    own_member j "result" = false ->
    missing_data JSON_parse (mkResponse (Some text)) Missing_Data_Results.

(** The template record after the GET loop has gone through [items]: every
    iteration overwrites all seven fields. *)
Definition last_normalized (items : list json) (r : ChangeRecord) : ChangeRecord :=
  fold_left (fun _ item => normalize item) items r.

(** The [result] member that carries [item] as the value to normalize: for
    GET the last entry of a list, for POST the result itself. *)
Definition result_of (m : method) (previous : list json) (item : json) : json :=
  match m with
  | GET => JArray (previous ++ [item])
  | POST => item
  end.

(** What the callback is handed on success, with [n] the first address
    allocated by the call: the output array for GET, the record for POST. *)
Definition delivered (m : method) (n : loc) : jsvalue :=
  match m with
  | GET => Ref (n + 3)
  | POST => Ref n
  end.

(** ** Sample data for the examples *)

Definition quote : string := String "034"%char "".

(** [JSON.stringify] on trees whose strings need no escaping. *)
Fixpoint stringify (j : json) : string :=
  match j with
  | JNull => "null"
  | JBool true => "true"
  | JBool false => "false"
  | JNumber n => NilZero.string_of_int (Z.to_int n)
  | JString s => quote +:+ s +:+ quote
  | JArray es => "[" +:+ String.concat "," (map stringify es) +:+ "]"
  | JObject ms =>
      "{" +:+ String.concat ","
                (map (fun '(k, v) => quote +:+ k +:+ quote +:+ ":" +:+ stringify v) ms)
          +:+ "}"
  end.

Definition CHG01 : json :=
  JObject [("number", JString "CHG01"); ("active", JBool true);
           ("priority", JString "1"); ("description", JString "d");
           ("work_start", JString "t1"); ("work_end", JString "t2");
           ("sys_id", JString "abc")].

Definition created_body : json := JObject [("result", CHG01)].

Definition listed_body : json :=
  JObject [("result", JArray [JObject [("number", JString "CHG1")];
                              JObject [("number", JString "CHG2")]])].

Definition sparse_body : json :=
  JObject [("result", JObject [("sys_id", JString "abc"); ("state", JString "new")])].

Definition empty_body : json := JObject [].

Definition shadowing_body : json := JObject [("hasOwnProperty", JNumber 1)].

Definition samples : list json :=
  [created_body; listed_body; sparse_body; empty_body; shadowing_body; JNull].

(** A stand-in for [JSON.parse] on the sample texts: each sample's text
    parses to the sample; every other text is rejected. *)
Definition sample_parse (text : string) : option json :=
  assoc text (map (fun j => (stringify j, j)) samples).

Definition html_text : string := "<html>Service unavailable</html>".

Definition hibernating : jsvalue := Data (JString "Service Now instance is hibernating").

Definition success (text : string) : reply :=
  mkReply (Some (mkResponse (Some text))) null.

Definition bodiless : reply := mkReply (Some (mkResponse None)) null.

Definition failure : reply := mkReply None hibernating.

Definition sample_props : adapterProperties :=
  mkProps "https://dev.service-now.com" "admin" "secret" "change_request".

(** An adapter whose connector answers every request with [r], with two
    listeners on ONLINE and one on OFFLINE. *)
Definition sample_adapter (r : reply) : ServiceNowAdapter :=
  on "OFFLINE" 3 (on "ONLINE" 2 (on "ONLINE" 1
    (constructor "ServiceNow" sample_props (mkConnector r r)))).

(** A value that contains no path of references back into itself, checked
    to depth [fuel]. *)
Fixpoint acyclic (fuel : nat) (h : list hobject) (v : jsvalue) : bool :=
  match v with
  | Ref l =>
      match fuel with
      | 0 => false
      | S fuel' =>
          match h !! l with
          | Some (ObjRecord r) =>
              acyclic fuel' h (change_ticket_number r) && acyclic fuel' h (active r)
              && acyclic fuel' h (priority r) && acyclic fuel' h (description r)
              && acyclic fuel' h (work_start r) && acyclic fuel' h (work_end r)
              && acyclic fuel' h (change_ticket_key r)
          | Some (ObjArray es) => forallb (acyclic fuel' h) es
          | _ => true
          end
      end
  | _ => true
  end.

(** A stand-in for [JSON.stringify] on the sample values: it returns for
    data trees and for heap structures without a cycle, and throws for a
    structure that reaches itself (a path of references longer than the
    heap has objects). *)
Definition sample_stringifiable (h : list hobject) (v : jsvalue) : bool :=
  acyclic (S (length h)) h v.

(** A heap that holds one array containing itself, as [a = []; a.push(a)]
    builds it, and the reply of a connector that reports that array as its
    error. *)
Definition cyclic_start : state := mkState [ObjArray [Ref 0]] [].

Definition cyclic_failure : reply := mkReply None (Ref 0).

Definition start : state := mkState [] [].

(** ** Outcome tables *)

(** How a record operation ends: it calls the callback with one value, or
    an exception escapes it. *)
Inductive verdict : Type :=
| Calls (v : jsvalue)
| Raises (e : exn).

(** The end of a run with verdict [vd], reached in state [s]. *)
Definition finish (callback : callback_fn) (vd : verdict) (s : state) : outcome unit * state :=
  match vd with
  | Calls v => callback [v] s
  | Raises e => (Throw e, s)
  end.

(** The one line a record operation logs. *)
Definition first_line (m : method) (r : reply) : event :=
  if truthy (error r) then error_log m else response_log m.

(** Whether the reply reports an error on which [JSON.stringify] throws
    in heap [h], extended by the objects the operation allocates on
    entry. *)
Definition rejects (stringifiable : list hobject -> jsvalue -> bool)
    (m : method) (r : reply) (h : list hobject) : bool :=
  truthy (error r) && negb (stringifiable (h ++ entry_heap m) (error r)).

(** The own [result] member of a parsed value, if it has one. *)
Definition result_member (j : json) : option json :=
  match j with
  | JObject ms => assoc "result" ms
  | _ => None
  end.

(** The GET loop from template [r] and output [es], with the template at
    address [n]: it stops at the first [null] entry with a TypeError. *)
Fixpoint loop_model (n : loc) (items : list json) (r : ChangeRecord) (es : list jsvalue)
    : option exn * ChangeRecord * list jsvalue :=
  match items with
  | [] => (None, r, es)
  | JNull :: _ => (Some TypeError, r, es)
  | item :: rest => loop_model n rest (normalize item) (es ++ [Ref n])
  end.

(** Where [getRecord] ends on reply [r] when its first allocation gets
    address [n], unless [JSON.stringify] throws on a reported error: the
    verdict and the four objects the call leaves behind. *)
Definition getRecord_model (JSON_parse : string -> option json) (r : reply) (n : loc)
    : verdict * list hobject :=
  let frame out := [ObjRecord null_record; ObjEmpty; ObjEmpty; ObjArray out] in
  if truthy (error r) then (Calls (error r), frame [])
  else
    match data r with
    | None => (Raises TypeError, frame [])
    | Some (mkResponse None) => (Calls (Ref (n + 3)), frame [Missing_Data_Body])
    | Some (mkResponse (Some text)) =>
        match JSON_parse text with
        | None => (Raises SyntaxError, frame [])
        | Some j =>
            if inherits_hasOwnProperty j then
              match result_member j with
              | None => (Calls (Ref (n + 3)), frame [Missing_Data_Results])
              | Some (JArray items) =>
                  match loop_model n items null_record [] with
                  | (None, r', es) =>
                      (Calls (Ref (n + 3)), [ObjRecord r'; ObjEmpty; ObjEmpty; ObjArray es])
                  | (Some e, r', es) =>
                      (Raises e, [ObjRecord r'; ObjEmpty; ObjEmpty; ObjArray es])
                  end
              | Some _ => (Raises TypeError, frame [])
              end
            else (Raises TypeError, frame [])
        end
    end.

(** The same for [postRecord], with its three objects. *)
Definition postRecord_model (JSON_parse : string -> option json) (r : reply) (n : loc)
    : verdict * list hobject :=
  let frame rec := [ObjRecord rec; ObjEmpty; ObjEmpty] in
  if truthy (error r) then (Calls (error r), frame null_record)
  else
    match data r with
    | None => (Raises TypeError, frame null_record)
    | Some (mkResponse None) => (Raises ReferenceError, frame null_record)
    | Some (mkResponse (Some text)) =>
        match JSON_parse text with
        | None => (Raises SyntaxError, frame null_record)
        | Some j =>
            if inherits_hasOwnProperty j then
              match result_member j with
              | None => (Raises ReferenceError, frame null_record)
              | Some JNull => (Raises TypeError, frame null_record)
              | Some item => (Calls (Ref n), frame (normalize item))
              end
            else (Raises TypeError, frame null_record)
        end
    end.

Definition record_model (JSON_parse : string -> option json) (m : method)
    : reply -> loc -> verdict * list hobject :=
  match m with
  | GET => getRecord_model JSON_parse
  | POST => postRecord_model JSON_parse
  end.

(** Two more sample bodies, and the stand-in parser extended to them. *)
Definition null_entry_body : json :=
  JObject [("result", JArray [JObject [("number", JString "CHG1")]; JNull;
                              JObject [("number", JString "CHG3")]])].

Definition null_result_body : json := JObject [("result", JNull)].

(** The body of C7 with a member called [hasOwnProperty] beside its
    [result]. *)
Definition shadowed_created_body : json :=
  JObject [("hasOwnProperty", JNumber 1); ("result", CHG01)].

Definition extended_parse (text : string) : option json :=
  assoc text (map (fun j => (stringify j, j))
                  (samples ++ [null_entry_body; null_result_body; shadowed_created_body])).

(** * Properties *)

(** ** How the primitives run *)

Lemma each_tell {A} (f : A -> event) (xs : list A) h t :
  each (fun x => tell (f x)) xs (mkState h t) = (Done tt, mkState h (t ++ map f xs)).
Proof.
  revert t. induction xs as [|x xs IH]; intros t; cbn.
  - by rewrite app_nil_r.
  - unfold bind, tell. cbn. rewrite IH. by rewrite <- app_assoc.
Qed.

Lemma emit_run ls status arg h t :
  EventEmitter.emit ls status arg (mkState h t) =
  (Done tt,
   mkState h (t ++ map (fun l => EvNotify l status arg)
                       (EventEmitter.subscribers status ls))).
Proof. unfold EventEmitter.emit. apply each_tell. Qed.

Lemma emitStatus_run this status h t :
  emitStatus this status (mkState h t) =
  (Done tt,
   mkState (h ++ [ObjIdentity (id this)])
           (t ++ EvLog log_info "Why me?"
              :: map (fun l => EvNotify l status (Ref (length h)))
                     (EventEmitter.subscribers status (listeners this)))).
Proof.
  unfold emitStatus, bind, log, tell, alloc. cbn.
  rewrite emit_run. by rewrite <- app_assoc.
Qed.

Lemma callbacks_app t1 t2 : callbacks (t1 ++ t2) = callbacks t1 ++ callbacks t2.
Proof. unfold callbacks. apply omap_app. Qed.

Lemma callbacks_notify (f : nat -> event) ls :
  (forall l, match f l with EvCallback _ => False | _ => True end) ->
  callbacks (map f ls) = [].
Proof.
  intros Hf. induction ls as [|l ls IH]; [done|].
  cbn. specialize (Hf l). destruct (f l); [exact IH | exact IH | done].
Qed.

Lemma emitOnline_run this h t :
  emitOnline this (mkState h t) =
  (Done tt,
   mkState (h ++ [ObjIdentity (id this)])
           (t ++ EvLog log_info "Why me?"
              :: map (fun l => EvNotify l "ONLINE" (Ref (length h)))
                     (EventEmitter.subscribers "ONLINE" (listeners this))
              ++ [EvLog log_info "ServiceNow: Instance is available."])).
Proof.
  unfold emitOnline, bind. rewrite emitStatus_run.
  unfold log, tell. cbn. by rewrite <- app_assoc.
Qed.

Lemma emitOffline_run this h t :
  emitOffline this (mkState h t) =
  (Done tt,
   mkState (h ++ [ObjIdentity (id this)])
           (t ++ EvLog log_info "Why me?"
              :: map (fun l => EvNotify l "OFFLINE" (Ref (length h)))
                     (EventEmitter.subscribers "OFFLINE" (listeners this))
              ++ [EvLog log_warn "ServiceNow: Instance is unavailable."])).
Proof.
  unfold emitOffline, bind. rewrite emitStatus_run.
  unfold log, tell. cbn. by rewrite <- app_assoc.
Qed.

#[local] Arguments emitOnline : simpl never.
#[local] Arguments emitOffline : simpl never.

(** ** Reading and writing the heap *)

Lemma member_run o name s :
  o <> JNull -> member o name s = (Done (field o name), s).
Proof.
  intros Ho. destruct o as [| | | | |ms]; try done.
  cbn. by destruct (assoc name ms).
Qed.

Lemma bind_assoc {A B C} (m : M A) (f : A -> M B) (g : B -> M C) s :
  bind (bind m f) g s = bind m (fun x => bind (f x) g) s.
Proof. unfold bind. by destruct (m s) as [[a|e] s']. Qed.

Lemma bind_ret {A B} (a : A) (k : A -> M B) s : bind (ret a) k s = k a s.
Proof. reflexivity. Qed.

Lemma bind_done {A B} (m : M A) (k : A -> M B) s a s' :
  m s = (Done a, s') -> bind m k s = k a s'.
Proof. unfold bind. by intros ->. Qed.

Lemma bind_member_of {B} o name (k : jsvalue -> M B) s :
  o <> JNull -> bind (member_of (Data o) name) k s = k (field o name) s.
Proof. intros Ho. unfold bind. cbn. by rewrite member_run. Qed.

Lemma index_name_digit i c rest : index_name i = String c rest -> c <> "r"%char.
Proof.
  unfold index_name. destruct (Nat.to_uint i); cbn; intros [= <- _]; done.
Qed.

Lemma indexed_own_key_result n : indexed_own_key n "result" = false.
Proof.
  unfold indexed_own_key. apply orb_false_intro; [reflexivity|].
  apply not_true_is_false. rewrite existsb_exists.
  intros (name & Hin & Heq). apply in_map_iff in Hin as (i & <- & _).
  apply String.eqb_eq in Heq. symmetry in Heq.
  by apply index_name_digit in Heq.
Qed.

Lemma hasOwnProperty_run j key s :
  inherits_hasOwnProperty j = true ->
  hasOwnProperty j key s = (Done (own_member j key), s).
Proof.
  destruct j as [| | | | |ms]; cbn; try done.
  by destruct (assoc "hasOwnProperty" ms).
Qed.

Lemma bind_assign {B} h r rest t set v (k : unit -> M B) :
  bind (assign (length h) set v) k (mkState (h ++ ObjRecord r :: rest) t) =
  k tt (mkState (h ++ ObjRecord (set v r) :: rest) t).
Proof.
  unfold bind, assign. cbn.
  replace (length h) with (length h + 0) at 1 by lia.
  by rewrite alter_app_r.
Qed.

Lemma push_run h frame t i es v :
  frame !! i = Some (ObjArray es) ->
  push (Ref (length h + i)) v (mkState (h ++ frame) t) =
  (Done tt, mkState (h ++ <[i := ObjArray (es ++ [v])]> frame) t).
Proof.
  intros Hi. unfold push. cbn.
  rewrite lookup_app_r by lia.
  replace (length h + i - length h) with i by lia.
  by rewrite Hi, insert_app_r.
Qed.

Lemma bind_hasOwnProperty {B} j key (k : bool -> M B) s :
  inherits_hasOwnProperty j = true ->
  bind (hasOwnProperty j key) k s = k (own_member j key) s.
Proof. intros Hj. apply bind_done. by apply hasOwnProperty_run. Qed.

Lemma bind_JSON_stringify {B} stringifiable v (k : unit -> M B) s :
  bind (JSON_stringify stringifiable v) k s =
  if stringifiable (heap s) v then k tt s else (Throw TypeError, s).
Proof. unfold bind, JSON_stringify. by destruct (stringifiable (heap s) v). Qed.

(** Bring the next primitive of a run to the front. *)
Ltac next_step :=
  repeat first [rewrite bind_assoc | rewrite bind_ret]; cbv beta.

#[local] Arguments JSON_stringify : simpl never.
#[local] Arguments assign : simpl never.
#[local] Arguments push : simpl never.
#[local] Arguments member_of : simpl never.
#[local] Arguments hasOwnProperty : simpl never.

(** A loop whose every step moves a state of shape [St x] to [St (next x a)]. *)
Lemma each_fold {A B X} (f : B -> M unit) (g : A -> B) (P : A -> Prop)
    (St : X -> state) (next : X -> A -> X) :
  (forall x a, P a -> f (g a) (St x) = (Done tt, St (next x a))) ->
  forall xs x, Forall P xs ->
    each f (map g xs) (St x) = (Done tt, St (fold_left next xs x)).
Proof.
  intros Hstep xs. induction xs as [|a xs IH]; intros x HP; [done|].
  inversion_clear HP as [|? ? Ha Hxs].
  cbn. unfold bind. rewrite Hstep by done. by apply IH.
Qed.

Lemma fold_records (n : loc) items r es :
  fold_left (fun (x : ChangeRecord * list jsvalue) item =>
               (normalize item, x.2 ++ [Ref n])) items (r, es) =
  (last_normalized items r, es ++ repeat (Ref n) (length items)).
Proof.
  revert r es. induction items as [|item items IH]; intros r es; cbn.
  - by rewrite app_nil_r.
  - rewrite IH. unfold last_normalized. cbn. by rewrite <- app_assoc.
Qed.

(** ** The status emitter *)

Lemma subscribers_on_same event l ls :
  EventEmitter.subscribers event (EventEmitter.on event l ls) =
  EventEmitter.subscribers event ls ++ [l].
Proof.
  unfold EventEmitter.subscribers, EventEmitter.on.
  rewrite filter_app, map_app. cbn.
  rewrite decide_True by apply String.eqb_refl. done.
Qed.

Lemma subscribers_on_other event event' l ls :
  event' <> event ->
  EventEmitter.subscribers event (EventEmitter.on event' l ls) =
  EventEmitter.subscribers event ls.
Proof.
  intros Hne. unfold EventEmitter.subscribers, EventEmitter.on.
  rewrite filter_app, map_app. cbn.
  rewrite decide_False; [by rewrite app_nil_r|].
  by rewrite String.eqb_eq.
Qed.

(** The id given to the constructor stays the adapter's id. *)
Lemma id_constructor i p remote : id (constructor i p remote) = i.
Proof. reflexivity. Qed.

Lemma id_on event l this : id (on event l this) = id this.
Proof. reflexivity. Qed.

(** C9. Emitting ONLINE or OFFLINE notifies every listener registered for
    that status exactly once per registration, in registration order and
    before [emitStatus] returns; all notifications of one emission carry the
    same reference, to one object [{ id }] holding the id the adapter was
    constructed with; with no listener the call still returns normally. *)
Theorem emitStatus_fan_out (this : ServiceNowAdapter) (st : Status) (s : state) :
  emitStatus this (status_name st) s =
  (Done tt,
   mkState (heap s ++ [ObjIdentity (id this)])
           (trace s ++ EvLog log_info "Why me?"
              :: map (fun l => EvNotify l (status_name st) (Ref (length (heap s))))
                     (EventEmitter.subscribers (status_name st) (listeners this)))).
Proof. destruct s as [h t]. apply emitStatus_run. Qed.

Example emit_ONLINE_two_subscribers :
  emitStatus (sample_adapter failure) "ONLINE" start =
  (Done tt,
   mkState [ObjIdentity "ServiceNow"]
           [EvLog log_info "Why me?";
            EvNotify 1 "ONLINE" (Ref 0); EvNotify 2 "ONLINE" (Ref 0)]).
Proof. reflexivity. Qed.

Example emit_without_subscribers :
  emitStatus (constructor "ServiceNow" sample_props (mkConnector failure failure))
             "OFFLINE" start =
  (Done tt, mkState [ObjIdentity "ServiceNow"] [EvLog log_info "Why me?"]).
Proof. reflexivity. Qed.

Section Properties.

Variable JSON_parse : string -> option json.
Variable stringifiable : list hobject -> jsvalue -> bool.

(** ** Transport errors *)

Lemma record_method_on_error
    (m : method) (this : ServiceNowAdapter) (callback : callback_fn) h t :
  truthy (error (reply_of m (connector this))) = true ->
  stringifiable (h ++ entry_heap m) (error (reply_of m (connector this))) = true ->
  record_method JSON_parse stringifiable m this callback (mkState h t) =
  callback [error (reply_of m (connector this))]
           (mkState (h ++ entry_heap m) (t ++ [error_log m])).
Proof.
  intros He Hs. destruct m; cbn in He, Hs |- *.
  - unfold getRecord, get. cbn. rewrite He. cbn. rewrite <- !app_assoc. cbn.
    rewrite bind_JSON_stringify. cbn. by rewrite Hs.
  - unfold postRecord, post. cbn. rewrite He. cbn. rewrite <- !app_assoc. cbn.
    rewrite bind_JSON_stringify. cbn. by rewrite Hs.
Qed.

(** C6, amended. When the connector reports an error that
    [JSON.stringify] accepts, [getRecord] and [postRecord] do nothing but
    log it and call the caller's callback with that very value: no record
    is filled in or handed over; the all-null template and, for
    [getRecord], the empty output array, both allocated on entry before the
    connector is called, stay as they are. *)
Theorem transport_error_forwarded
    (m : method) (this : ServiceNowAdapter) (callback : callback_fn) (s : state) :
  truthy (error (reply_of m (connector this))) = true ->
  stringifiable (heap s ++ entry_heap m) (error (reply_of m (connector this))) = true ->
  record_method JSON_parse stringifiable m this callback s =
  callback [error (reply_of m (connector this))]
           (mkState (heap s ++ entry_heap m) (trace s ++ [error_log m])).
Proof. intros He Hs. destruct s as [h t]. by apply record_method_on_error. Qed.

(** X12. What the amendments of C6 and C10 leave out: a reported error
    that [JSON.stringify] rejects ends [getRecord] and [postRecord] in a
    TypeError while the log line is being built; nothing is logged and the
    callback is never called. *)
Theorem unserializable_error_throws
    (m : method) (this : ServiceNowAdapter) (callback : callback_fn) h t :
  truthy (error (reply_of m (connector this))) = true ->
  stringifiable (h ++ entry_heap m) (error (reply_of m (connector this))) = false ->
  record_method JSON_parse stringifiable m this callback (mkState h t) =
  (Throw TypeError, mkState (h ++ entry_heap m) t).
Proof.
  intros He Hs. destruct m; cbn in He, Hs |- *.
  - unfold getRecord, get. cbn. rewrite He. cbn. rewrite <- !app_assoc. cbn.
    rewrite bind_JSON_stringify. cbn. by rewrite Hs.
  - unfold postRecord, post. cbn. rewrite He. cbn. rewrite <- !app_assoc. cbn.
    rewrite bind_JSON_stringify. cbn. by rewrite Hs.
Qed.

(** What a probe does when the connector fails: [getRecord] passes the
    error as the first argument, so the arrow function of [healthcheck]
    finds its second parameter [undefined] and takes the ONLINE branch. *)
Lemma healthcheck_on_error this (callback : option callback_fn) h t :
  truthy (error (get_reply (connector this))) = true ->
  stringifiable (h ++ entry_heap GET) (error (get_reply (connector this))) = true ->
  healthcheck JSON_parse stringifiable this callback (mkState h t) =
  match callback with
  | Some cb => cb [error (get_reply (connector this))]
  | None => ret tt
  end
    (mkState (h ++ entry_heap GET ++ [ObjIdentity (id this)])
             (t ++ [error_log GET; EvLog log_info "ServiceNow Adapter: ONLINE";
                    EvLog log_info "Why me?"]
                ++ map (fun l => EvNotify l "ONLINE" (Ref (length h + 4)))
                       (EventEmitter.subscribers "ONLINE" (listeners this))
                ++ [EvLog log_info "ServiceNow: Instance is available."])).
Proof.
  intros He Hs. unfold healthcheck.
  pose proof (fun k => record_method_on_error GET this k h t He Hs) as Hrun.
  cbn [record_method reply_of] in Hrun. rewrite Hrun.
  cbn -[bind]. unfold log, tell, bind at 1. cbn -[bind].
  unfold bind at 1. rewrite emitOnline_run.
  rewrite <- !app_assoc, !length_app. cbn.
  reflexivity.
Qed.

(** C10, amended. On a connector failure whose error value
    [JSON.stringify] accepts, the caller's callback is called once, with
    one argument, the error value: it sits in the slot that carries the
    data on success, and no second argument is passed.  Nothing else of the
    run reaches the callback. *)
Theorem error_in_data_slot
    (op : operation) (this : ServiceNowAdapter) (callback : callback_fn) (s : state) :
  truthy (error (reply_for op (connector this))) = true ->
  stringifiable (heap s ++ entry_heap (method_of op))
                (error (reply_for op (connector this))) = true ->
  exists s',
    run_operation JSON_parse stringifiable op this callback s =
      callback [error (reply_for op (connector this))] s'
    /\ callbacks (trace s') = callbacks (trace s).
Proof.
  intros He Hs.
  destruct s as [h t], op; cbn [run_operation reply_for method_of heap] in He, Hs |- *.
  - eexists. split.
    + exact (record_method_on_error GET this callback h t He Hs).
    + cbn. rewrite callbacks_app. cbn. by rewrite app_nil_r.
  - eexists. split.
    + exact (record_method_on_error POST this callback h t He Hs).
    + cbn. rewrite callbacks_app. cbn. by rewrite app_nil_r.
  - eexists. split.
    + by rewrite healthcheck_on_error.
    + cbn [trace]. rewrite !callbacks_app, callbacks_notify by done.
      cbn. by rewrite app_nil_r.
Qed.

(** C2, at a connector failure. The probe logs the error (which takes
    an error that [JSON.stringify] accepts), then takes the ONLINE branch:
    it notifies the ONLINE listeners, never the OFFLINE ones, and only then
    calls the optional callback with the error. *)
Theorem probe_failure_emits_ONLINE
    (this : ServiceNowAdapter) (callback : option callback_fn) (s : state) :
  truthy (error (get_reply (connector this))) = true ->
  stringifiable (heap s ++ entry_heap GET) (error (get_reply (connector this))) = true ->
  healthcheck JSON_parse stringifiable this callback s =
  match callback with
  | Some cb => cb [error (get_reply (connector this))]
  | None => ret tt
  end
    (mkState (heap s ++ entry_heap GET ++ [ObjIdentity (id this)])
             (trace s
                ++ [error_log GET; EvLog log_info "ServiceNow Adapter: ONLINE";
                    EvLog log_info "Why me?"]
                ++ map (fun l => EvNotify l "ONLINE" (Ref (length (heap s) + 4)))
                       (EventEmitter.subscribers "ONLINE" (listeners this))
                ++ [EvLog log_info "ServiceNow: Instance is available."])).
Proof. destruct s as [h t]. apply healthcheck_on_error. Qed.

(** ** Successful responses *)

Lemma getRecord_list this callback h t text ms items :
  truthy (error (get_reply (connector this))) = false ->
  data (get_reply (connector this)) = Some (mkResponse (Some text)) ->
  JSON_parse text = Some (JObject ms) ->
  assoc "hasOwnProperty" ms = None ->
  assoc "result" ms = Some (JArray items) ->
  Forall (fun item => item <> JNull) items ->
  getRecord JSON_parse stringifiable this callback (mkState h t) =
  callback [Ref (length h + 3)]
    (mkState (h ++ [ObjRecord (last_normalized items null_record); ObjEmpty; ObjEmpty;
                    ObjArray (repeat (Ref (length h)) (length items))])
             (t ++ [response_log GET])).
Proof.
  intros He Hd Hp Hs Hr Hitems.
  unfold getRecord, get. cbn. rewrite He, Hd. cbn.
  unfold parse. rewrite Hp. cbn.
  rewrite <- !app_assoc. cbn. rewrite !length_app. cbn.
  next_step. rewrite bind_hasOwnProperty by (cbn; by rewrite Hs).
  cbn -[bind]. rewrite Hr. next_step.
  unfold forEach.
  pose (St := fun x : ChangeRecord * list jsvalue =>
           mkState (h ++ [ObjRecord x.1; ObjEmpty; ObjEmpty; ObjArray x.2])
                   (t ++ [response_log GET])).
  pose (next := fun (x : ChangeRecord * list jsvalue) item =>
           (normalize item, x.2 ++ [Ref (length h)])).
  match goal with
  | |- context [each ?f (map Data items)] =>
      assert (Hloop : forall x,
        each f (map Data items) (St x) = (Done tt, St (fold_left next items x)))
  end.
  { intros x. apply (each_fold _ Data (fun item => item <> JNull)); [|done].
    intros [r es] item Hitem. unfold St, next. cbn -[bind].
    repeat (rewrite bind_member_of by done; rewrite bind_assign).
    rewrite (push_run h _ _ 3 es) by done.
    by destruct r. }
  erewrite bind_done by apply (Hloop (null_record, [])).
  unfold St, next. by rewrite fold_records.
Qed.

Lemma postRecord_single this callback h t text ms item :
  truthy (error (post_reply (connector this))) = false ->
  data (post_reply (connector this)) = Some (mkResponse (Some text)) ->
  JSON_parse text = Some (JObject ms) ->
  assoc "hasOwnProperty" ms = None ->
  assoc "result" ms = Some item ->
  item <> JNull ->
  postRecord JSON_parse stringifiable this callback (mkState h t) =
  callback [Ref (length h)]
    (mkState (h ++ [ObjRecord (normalize item); ObjEmpty; ObjEmpty])
             (t ++ [response_log POST])).
Proof.
  intros He Hd Hp Hs Hr Hitem.
  unfold postRecord, post. cbn. rewrite He, Hd. cbn.
  unfold parse. rewrite Hp. cbn.
  rewrite <- !app_assoc. cbn.
  next_step. rewrite bind_hasOwnProperty by (cbn; by rewrite Hs).
  cbn -[bind]. rewrite Hr.
  repeat (next_step; first [rewrite bind_member_of by done | rewrite bind_assign]).
  reflexivity.
Qed.

Lemma getRecord_on_missing_data this callback h t d sentinel :
  truthy (error (get_reply (connector this))) = false ->
  data (get_reply (connector this)) = Some d ->
  missing_data JSON_parse d sentinel ->
  getRecord JSON_parse stringifiable this callback (mkState h t) =
  callback [Ref (length h + 3)]
    (mkState (h ++ [ObjRecord null_record; ObjEmpty; ObjEmpty; ObjArray [sentinel]])
             (t ++ [response_log GET])).
Proof.
  intros He Hd Hm.
  unfold getRecord, get. cbn. rewrite He, Hd. cbn.
  rewrite <- !app_assoc. cbn. rewrite !length_app. cbn.
  destruct Hm as [|text j Hp Hinh Hown]; cbn -[bind].
  - next_step. erewrite bind_done by (by apply (push_run h _ _ 3 [])).
    reflexivity.
  - unfold parse. rewrite Hp. next_step.
    rewrite bind_hasOwnProperty by done. rewrite Hown.
    erewrite bind_done by (by apply (push_run h _ _ 3 [])).
    reflexivity.
Qed.

(** C1, as the code has it. For a GET result of [N] non-null entries the
    callback receives an array of [N] entries, but every entry is the same
    reference, to the one template record allocated on entry; that record
    holds the fields of the last entry. *)
Theorem getRecord_entries_share_template
    (this : ServiceNowAdapter) (callback : callback_fn) (s : state)
    (text : string) (ms : list (string * json)) (items : list json) :
  truthy (error (get_reply (connector this))) = false ->
  data (get_reply (connector this)) = Some (mkResponse (Some text)) ->
  JSON_parse text = Some (JObject ms) ->
  assoc "hasOwnProperty" ms = None ->
  assoc "result" ms = Some (JArray items) ->
  Forall (fun item => item <> JNull) items ->
  getRecord JSON_parse stringifiable this callback s =
  callback [Ref (length (heap s) + 3)]
    (mkState (heap s ++ [ObjRecord (last_normalized items null_record);
                         ObjEmpty; ObjEmpty;
                         ObjArray (repeat (Ref (length (heap s))) (length items))])
             (trace s ++ [response_log GET])).
Proof. destruct s as [h t]. apply getRecord_list. Qed.

(** C3, as the code has it. When a successful POST response has no body,
    or its parsed body has no [result], the branch reads the identifier
    [outRecords], which nothing binds in [postRecord]: the run ends in a
    ReferenceError and the callback is never called. *)
Theorem postRecord_missing_data_throws
    (this : ServiceNowAdapter) (callback : callback_fn) (s : state)
    (d : response) (sentinel : jsvalue) :
  truthy (error (post_reply (connector this))) = false ->
  data (post_reply (connector this)) = Some d ->
  missing_data JSON_parse d sentinel ->
  postRecord JSON_parse stringifiable this callback s =
  (Throw ReferenceError,
   mkState (heap s ++ entry_heap POST) (trace s ++ [response_log POST])).
Proof.
  intros He Hd Hm. destruct s as [h t].
  unfold postRecord, post. cbn. rewrite He, Hd. cbn.
  rewrite <- !app_assoc. cbn.
  destruct Hm as [|text j Hp Hinh Hown]; cbn.
  - reflexivity.
  - unfold parse. rewrite Hp. next_step.
    rewrite bind_hasOwnProperty by done. rewrite Hown. reflexivity.
Qed.


(** The half of C2 that holds: a probe whose GET succeeds but misses its
    data emits ONLINE and then hands the optional callback the array with
    the sentinel. *)
Lemma probe_missing_data_emits_ONLINE
    (this : ServiceNowAdapter) (callback : option callback_fn) (s : state)
    (d : response) (sentinel : jsvalue) :
  truthy (error (get_reply (connector this))) = false ->
  data (get_reply (connector this)) = Some d ->
  missing_data JSON_parse d sentinel ->
  healthcheck JSON_parse stringifiable this callback s =
  match callback with
  | Some cb => cb [Ref (length (heap s) + 3)]
  | None => ret tt
  end
    (mkState (heap s ++ [ObjRecord null_record; ObjEmpty; ObjEmpty;
                         ObjArray [sentinel]; ObjIdentity (id this)])
             (trace s
                ++ [response_log GET; EvLog log_info "ServiceNow Adapter: ONLINE";
                    EvLog log_info "Why me?"]
                ++ map (fun l => EvNotify l "ONLINE" (Ref (length (heap s) + 4)))
                       (EventEmitter.subscribers "ONLINE" (listeners this))
                ++ [EvLog log_info "ServiceNow: Instance is available."])).
Proof.
  intros He Hd Hm. destruct s as [h t]. unfold healthcheck.
  rewrite (getRecord_on_missing_data this _ h t d sentinel He Hd Hm).
  cbn -[bind]. unfold log, tell, bind at 1. cbn -[bind].
  unfold bind at 1. rewrite emitOnline_run.
  rewrite <- !app_assoc, !length_app. cbn.
  reflexivity.
Qed.

(** C5, amended. When the body of a successful response cannot be parsed,
    [getRecord] and [postRecord] end in the parser's SyntaxError, raised
    inside the connector's callback; the caller's callback is not called,
    neither with an error value nor with a sentinel. *)
Theorem malformed_body_throws
    (m : method) (this : ServiceNowAdapter) (callback : callback_fn) (s : state)
    (text : string) :
  truthy (error (reply_of m (connector this))) = false ->
  data (reply_of m (connector this)) = Some (mkResponse (Some text)) ->
  JSON_parse text = None ->
  record_method JSON_parse stringifiable m this callback s =
  (Throw SyntaxError,
   mkState (heap s ++ entry_heap m) (trace s ++ [response_log m])).
Proof.
  intros He Hd Hp. destruct s as [h t], m; cbn in He, Hd |- *.
  - unfold getRecord, get. cbn. rewrite He, Hd. cbn.
    unfold parse. rewrite Hp. cbn. by rewrite <- !app_assoc.
  - unfold postRecord, post. cbn. rewrite He, Hd. cbn.
    unfold parse. rewrite Hp. cbn. by rewrite <- !app_assoc.
Qed.


(** C8, amended. Normalizing a non-null source value, the POST result or
    the last entry of the GET result list, raises no error and gives the
    record [normalize item]: each field holds the source member of the
    mapping table when the source has it and [undefined] when it has not,
    and no other member of the source is read. *)
Theorem normalization_reads_seven_members
    (m : method) (this : ServiceNowAdapter) (callback : callback_fn) (s : state)
    (text : string) (ms : list (string * json)) (previous : list json) (item : json) :
  truthy (error (reply_of m (connector this))) = false ->
  data (reply_of m (connector this)) = Some (mkResponse (Some text)) ->
  JSON_parse text = Some (JObject ms) ->
  assoc "hasOwnProperty" ms = None ->
  assoc "result" ms = Some (result_of m previous item) ->
  Forall (fun entry => entry <> JNull) previous ->
  item <> JNull ->
  exists s',
    record_method JSON_parse stringifiable m this callback s =
      callback [delivered m (length (heap s))] s'
    /\ heap s' !! length (heap s) = Some (ObjRecord (normalize item)).
Proof.
  intros He Hd Hp Hs Hr Hprev Hitem. destruct s as [h t], m; cbn in He, Hd, Hr |- *.
  - eexists. split.
    + apply (getRecord_list this callback h t text ms _ He Hd Hp Hs Hr).
      apply Forall_app. split; [done|]. by constructor.
    + cbn. rewrite list_lookup_middle by done.
      unfold last_normalized. by rewrite fold_left_app.
  - eexists. split.
    + by apply (postRecord_single this callback h t text ms item).
    + cbn. by rewrite list_lookup_middle.
Qed.

End Properties.

(** ** What the mapping reads *)

Lemma field_missing ms name :
  assoc name ms = None -> field (JObject ms) name = Undefined.
Proof. intros H. cbn. by rewrite H. Qed.

Lemma field_present ms name v :
  assoc name ms = Some v -> field (JObject ms) name = Data v.
Proof. intros H. cbn. by rewrite H. Qed.

(** A member outside the mapping table does not change the record. *)
Lemma normalize_ignores_other_members key value ms :
  ~ In key source_fields ->
  normalize (JObject ((key, value) :: ms)) = normalize (JObject ms).
Proof.
  intros Hkey.
  assert (Hne : forall name, In name source_fields -> String.eqb name key = false).
  { intros name Hin. apply String.eqb_neq. by intros ->. }
  unfold normalize, field. cbn [assoc].
  rewrite !Hne; [done|cbn; tauto..].
Qed.

(** ** The statements at the sample data *)

Lemma transport_error_forwarded_witness :
  getRecord sample_parse sample_stringifiable (sample_adapter failure) observer start =
  (Done tt,
   mkState [ObjRecord null_record; ObjEmpty; ObjEmpty; ObjArray []]
           [EvLog log_error "Error returned from GET request";
            EvCallback [hibernating]]).
Proof.
  exact (transport_error_forwarded sample_parse sample_stringifiable GET
           (sample_adapter failure) observer start eq_refl eq_refl).
Defined.

(** C6 as stated fails: the connector reports as its error an array that
    contains itself; [JSON.stringify] throws on it while the log line is
    built, so [getRecord] ends in a TypeError and the error never reaches
    the callback. *)
Lemma cyclic_error_not_forwarded :
  getRecord sample_parse sample_stringifiable (sample_adapter cyclic_failure) observer
            cyclic_start =
  (Throw TypeError, mkState ([ObjArray [Ref 0]] ++ entry_heap GET) []).
Proof. reflexivity. Qed.

Lemma error_in_data_slot_witness :
  exists s',
    healthcheck sample_parse sample_stringifiable (sample_adapter failure) (Some observer) start =
      observer [hibernating] s'
    /\ callbacks (trace s') = [].
Proof.
  exact (error_in_data_slot sample_parse sample_stringifiable op_healthcheck
           (sample_adapter failure) observer start eq_refl eq_refl).
Defined.

(** C10 as stated fails: on the same cyclic error, [postRecord] and a probe
    with a callback end in a TypeError; the callback is not called, with
    the error or with anything else, and the probe emits no status. *)
Lemma cyclic_error_skips_callback :
  postRecord sample_parse sample_stringifiable (sample_adapter cyclic_failure) observer
             cyclic_start =
  (Throw TypeError, mkState ([ObjArray [Ref 0]] ++ entry_heap POST) [])
  /\
  healthcheck sample_parse sample_stringifiable (sample_adapter cyclic_failure)
              (Some observer) cyclic_start =
  (Throw TypeError, mkState ([ObjArray [Ref 0]] ++ entry_heap GET) []).
Proof. split; reflexivity. Qed.

(** The probe of an unreachable service: two ONLINE notifications, no
    OFFLINE one. *)
Lemma probe_failure_emits_ONLINE_witness :
  connect sample_parse sample_stringifiable (sample_adapter failure) start =
  (Done tt,
   mkState [ObjRecord null_record; ObjEmpty; ObjEmpty; ObjArray [];
            ObjIdentity "ServiceNow"]
           [EvLog log_error "Error returned from GET request";
            EvLog log_info "ServiceNow Adapter: ONLINE";
            EvLog log_info "Why me?";
            EvNotify 1 "ONLINE" (Ref 4); EvNotify 2 "ONLINE" (Ref 4);
            EvLog log_info "ServiceNow: Instance is available."]).
Proof.
  exact (probe_failure_emits_ONLINE sample_parse sample_stringifiable
           (sample_adapter failure) None start eq_refl eq_refl).
Defined.

(** A probe that meets an unparseable body emits no status at all. *)
Example probe_malformed_body_emits_nothing :
  connect sample_parse sample_stringifiable (sample_adapter (success html_text)) start =
  (Throw SyntaxError, mkState (entry_heap GET) [response_log GET]).
Proof. reflexivity. Qed.

(** A probe that meets a response without a body emits ONLINE. *)
Example probe_bodiless_emits_ONLINE :
  connect sample_parse sample_stringifiable (sample_adapter bodiless) start =
  (Done tt,
   mkState [ObjRecord null_record; ObjEmpty; ObjEmpty; ObjArray [Missing_Data_Body];
            ObjIdentity "ServiceNow"]
           [response_log GET;
            EvLog log_info "ServiceNow Adapter: ONLINE";
            EvLog log_info "Why me?";
            EvNotify 1 "ONLINE" (Ref 4); EvNotify 2 "ONLINE" (Ref 4);
            EvLog log_info "ServiceNow: Instance is available."]).
Proof. reflexivity. Qed.

(** Two entries, [CHG1] and [CHG2]: the array holds the same reference
    twice and the one record reads [CHG2]. *)
Lemma getRecord_entries_share_template_witness :
  getRecord sample_parse sample_stringifiable (sample_adapter (success (stringify listed_body))) observer start =
  (Done tt,
   mkState [ObjRecord {| change_ticket_number := Data (JString "CHG2");
                         active := Undefined; priority := Undefined;
                         description := Undefined; work_start := Undefined;
                         work_end := Undefined; change_ticket_key := Undefined |};
            ObjEmpty; ObjEmpty; ObjArray [Ref 0; Ref 0]]
           [response_log GET; EvCallback [Ref 3]]).
Proof.
  refine (getRecord_entries_share_template sample_parse sample_stringifiable
            (sample_adapter (success (stringify listed_body))) observer start
            (stringify listed_body) _
            [JObject [("number", JString "CHG1")]; JObject [("number", JString "CHG2")]]
            eq_refl eq_refl eq_refl eq_refl eq_refl _).
  repeat (constructor; [discriminate|]). constructor.
Defined.

Lemma postRecord_missing_data_throws_witness :
  postRecord sample_parse sample_stringifiable (sample_adapter bodiless) observer start =
  (Throw ReferenceError, mkState (entry_heap POST) [response_log POST]).
Proof.
  exact (postRecord_missing_data_throws sample_parse sample_stringifiable (sample_adapter bodiless) observer
           start (mkResponse None) Missing_Data_Body eq_refl eq_refl
           (missing_body sample_parse)).
Defined.



(** So does a body with a member of its own called [hasOwnProperty]. *)
Example getRecord_shadowing_body_TypeError :
  getRecord sample_parse sample_stringifiable (sample_adapter (success (stringify shadowing_body))) observer
            start =
  (Throw TypeError, mkState (entry_heap GET) [response_log GET]).
Proof. reflexivity. Qed.

Lemma malformed_body_throws_witness :
  postRecord sample_parse sample_stringifiable (sample_adapter (success html_text)) observer start =
  (Throw SyntaxError, mkState (entry_heap POST) [response_log POST]).
Proof.
  exact (malformed_body_throws sample_parse sample_stringifiable POST (sample_adapter (success html_text))
           observer start html_text eq_refl eq_refl eq_refl).
Defined.

(** C5 as stated fails: on an unparseable body the trace of [getRecord]
    holds no callback invocation at all, with an error or otherwise. *)
Lemma malformed_body_never_reaches_callback :
  getRecord sample_parse sample_stringifiable (sample_adapter (success html_text)) observer start =
  (Throw SyntaxError, mkState (entry_heap GET) [response_log GET]).
Proof. reflexivity. Qed.



(** A second call after the first: a second record at a new address, the
    first one unchanged. *)
Example postRecord_twice :
  (postRecord sample_parse sample_stringifiable (sample_adapter (success (stringify created_body))) observer ;;
   postRecord sample_parse sample_stringifiable (sample_adapter (success (stringify sparse_body))) observer)
    start =
  (Done tt,
   mkState [ObjRecord (normalize CHG01); ObjEmpty; ObjEmpty;
            ObjRecord (normalize (JObject [("sys_id", JString "abc");
                                           ("state", JString "new")]));
            ObjEmpty; ObjEmpty]
           [response_log POST; EvCallback [Ref 0];
            response_log POST; EvCallback [Ref 3]]).
Proof. reflexivity. Qed.

Lemma normalization_reads_seven_members_witness :
  exists s',
    postRecord sample_parse sample_stringifiable (sample_adapter (success (stringify sparse_body))) observer
               start = observer [Ref 0] s'
    /\ heap s' !! 0 =
       Some (ObjRecord (normalize (JObject [("sys_id", JString "abc");
                                            ("state", JString "new")]))).
Proof.
  refine (normalization_reads_seven_members sample_parse sample_stringifiable POST
            (sample_adapter (success (stringify sparse_body))) observer start
            (stringify sparse_body) _ []
            (JObject [("sys_id", JString "abc"); ("state", JString "new")])
            eq_refl eq_refl eq_refl eq_refl eq_refl _ _).
  - constructor.
  - discriminate.
Defined.

(** C8 as stated fails: the source [{sys_id:"abc", state:"new"}] lacks six
    of the mapped members, and the record holds [undefined] for them, which
    is not [null]. *)
Lemma missing_members_read_undefined :
  postRecord sample_parse sample_stringifiable (sample_adapter (success (stringify sparse_body))) observer
             start =
  (Done tt,
   mkState [ObjRecord {| change_ticket_number := Undefined;
                         active := Undefined; priority := Undefined;
                         description := Undefined; work_start := Undefined;
                         work_end := Undefined;
                         change_ticket_key := Data (JString "abc") |};
            ObjEmpty; ObjEmpty]
           [response_log POST; EvCallback [Ref 0]])
  /\ Undefined <> null.
Proof. split; [reflexivity | discriminate]. Qed.

(** * Beyond the claims: every reply *)

Lemma own_member_result j :
  own_member j "result" = match result_member j with Some _ => true | None => false end.
Proof.
  destruct j; cbn [own_member result_member]; try done; apply indexed_own_key_result.
Qed.

Lemma bind_member_of_null {B} name (k : jsvalue -> M B) s :
  bind (member_of (Data JNull) name) k s = (Throw TypeError, s).
Proof. reflexivity. Qed.

Lemma loop_model_cons n item items r es :
  item <> JNull ->
  loop_model n (item :: items) r es =
  loop_model n items (normalize item) (es ++ [Ref n]).
Proof. by destruct item. Qed.

Section Outcomes.

Variable JSON_parse : string -> option json.
Variable stringifiable : list hobject -> jsvalue -> bool.

Lemma getRecord_refines this callback h t :
  getRecord JSON_parse stringifiable this callback (mkState h t) =
  if rejects stringifiable GET (get_reply (connector this)) h
  then (Throw TypeError, mkState (h ++ entry_heap GET) t)
  else
    finish callback (getRecord_model JSON_parse (get_reply (connector this)) (length h)).1
      (mkState (h ++ (getRecord_model JSON_parse (get_reply (connector this)) (length h)).2)
               (t ++ [first_line GET (get_reply (connector this))])).
Proof.
  unfold getRecord, get, getRecord_model, first_line, rejects.
  destruct (truthy (error (get_reply (connector this)))) eqn:He.
  { cbn. rewrite <- !app_assoc. cbn. rewrite bind_JSON_stringify. cbn.
    by destruct (stringifiable _ _). }
  cbn. rewrite <- !app_assoc. cbn. rewrite !length_app. cbn.
  destruct (data (get_reply (connector this))) as [[[text|]]|]; cbn -[bind].
  - unfold parse. destruct (JSON_parse text) as [j|]; [|reflexivity].
    next_step.
    destruct (inherits_hasOwnProperty j) eqn:Hinh.
    + rewrite bind_hasOwnProperty by done. rewrite own_member_result.
      destruct (result_member j) as [v|] eqn:Hv.
      * destruct j as [| | | | |ms]; try discriminate. cbn in Hv.
        next_step. cbn -[bind]. rewrite Hv. next_step.
        destruct v as [| | | |items|]; try reflexivity.
        unfold forEach.
        pose (St := fun (r : ChangeRecord) (es : list jsvalue) =>
                 mkState (h ++ [ObjRecord r; ObjEmpty; ObjEmpty; ObjArray es])
                         (t ++ [response_log GET])).
        match goal with
        | |- context [each ?f (map Data items)] =>
            assert (Hstep : forall item r es, item <> JNull ->
              f (Data item) (St r es) =
              (Done tt, St (normalize item) (es ++ [Ref (length h)])));
            [|assert (Hloop : forall r es,
                each f (map Data items) (St r es) =
                (match (loop_model (length h) items r es).1.1 with
                 | None => Done tt
                 | Some e => Throw e
                 end,
                 St (loop_model (length h) items r es).1.2
                    (loop_model (length h) items r es).2))]
        end.
        { intros item r es Hitem. unfold St. cbn -[bind].
          repeat (rewrite bind_member_of by done; rewrite bind_assign).
          rewrite (push_run h _ _ 3 es) by done.
          by destruct r. }
        { clear Hv. induction items as [|item items IH]; intros r es; [done|].
          cbn [map each].
          assert (item = JNull \/ item <> JNull) as [->|Hitem]
            by (destruct item; [by left|by right..]).
          - cbv beta. next_step. apply bind_member_of_null.
          - pose proof (Hstep item r es Hitem) as Hi. cbv beta in Hi.
            erewrite bind_done by exact Hi.
            rewrite loop_model_cons by done. apply IH. }
        specialize (Hloop null_record []). unfold St in Hloop.
        unfold bind at 1. cbn -[bind] in Hloop |- *. rewrite Hloop.
        by destruct (loop_model (length h) items null_record []) as [[[e|] r'] es].
      * erewrite bind_done by (by apply (push_run h _ _ 3 [])). reflexivity.
    + assert (Hthrow : forall key s,
        hasOwnProperty j key s = (Throw TypeError, s)).
      { intros key s. destruct j as [| | | | |ms]; try done.
        unfold hasOwnProperty. cbn in Hinh.
        by destruct (assoc "hasOwnProperty" ms). }
      unfold bind at 1. by rewrite Hthrow.
  - next_step. erewrite bind_done by (by apply (push_run h _ _ 3 [])). reflexivity.
  - reflexivity.
Qed.

Lemma postRecord_refines this callback h t :
  postRecord JSON_parse stringifiable this callback (mkState h t) =
  if rejects stringifiable POST (post_reply (connector this)) h
  then (Throw TypeError, mkState (h ++ entry_heap POST) t)
  else
    finish callback (postRecord_model JSON_parse (post_reply (connector this)) (length h)).1
      (mkState (h ++ (postRecord_model JSON_parse (post_reply (connector this)) (length h)).2)
               (t ++ [first_line POST (post_reply (connector this))])).
Proof.
  unfold postRecord, post, postRecord_model, first_line, rejects.
  destruct (truthy (error (post_reply (connector this)))) eqn:He.
  { cbn. rewrite <- !app_assoc. cbn. rewrite bind_JSON_stringify. cbn.
    by destruct (stringifiable _ _). }
  cbn. rewrite <- !app_assoc. cbn.
  destruct (data (post_reply (connector this))) as [[[text|]]|]; cbn -[bind];
    [|reflexivity..].
  unfold parse. destruct (JSON_parse text) as [j|]; [|reflexivity].
  next_step.
  destruct (inherits_hasOwnProperty j) eqn:Hinh.
  - rewrite bind_hasOwnProperty by done. rewrite own_member_result.
    destruct (result_member j) as [v|] eqn:Hv; [|reflexivity].
    destruct j as [| | | | |ms]; try discriminate. cbn in Hv.
    next_step. cbn -[bind]. rewrite Hv.
    assert (v = JNull \/ v <> JNull) as [->|Hitem]
      by (destruct v; [by left|by right..]).
    + next_step. apply bind_member_of_null.
    + repeat (next_step; first [rewrite bind_member_of by done | rewrite bind_assign]).
      by destruct v.
  - assert (Hthrow : forall key s,
      hasOwnProperty j key s = (Throw TypeError, s)).
    { intros key s. destruct j as [| | | | |ms]; try done.
      unfold hasOwnProperty. cbn in Hinh.
      by destruct (assoc "hasOwnProperty" ms). }
    unfold bind at 1. by rewrite Hthrow.
Qed.

Lemma record_method_refines m this callback h t :
  record_method JSON_parse stringifiable m this callback (mkState h t) =
  if rejects stringifiable m (reply_of m (connector this)) h
  then (Throw TypeError, mkState (h ++ entry_heap m) t)
  else
    finish callback (record_model JSON_parse m (reply_of m (connector this)) (length h)).1
      (mkState (h ++ (record_model JSON_parse m (reply_of m (connector this)) (length h)).2)
               (t ++ [first_line m (reply_of m (connector this))])).
Proof. destruct m; [apply getRecord_refines | apply postRecord_refines]. Qed.

Lemma record_method_no_error m this callback h t :
  truthy (error (reply_of m (connector this))) = false ->
  record_method JSON_parse stringifiable m this callback (mkState h t) =
  finish callback (record_model JSON_parse m (reply_of m (connector this)) (length h)).1
    (mkState (h ++ (record_model JSON_parse m (reply_of m (connector this)) (length h)).2)
             (t ++ [first_line m (reply_of m (connector this))])).
Proof. intros He. rewrite record_method_refines. unfold rejects. by rewrite He. Qed.

Lemma getRecord_no_error this callback h t :
  truthy (error (get_reply (connector this))) = false ->
  getRecord JSON_parse stringifiable this callback (mkState h t) =
  finish callback (getRecord_model JSON_parse (get_reply (connector this)) (length h)).1
    (mkState (h ++ (getRecord_model JSON_parse (get_reply (connector this)) (length h)).2)
             (t ++ [first_line GET (get_reply (connector this))])).
Proof. intros He. exact (record_method_no_error GET this callback h t He). Qed.

Lemma postRecord_no_error this callback h t :
  truthy (error (post_reply (connector this))) = false ->
  postRecord JSON_parse stringifiable this callback (mkState h t) =
  finish callback (postRecord_model JSON_parse (post_reply (connector this)) (length h)).1
    (mkState (h ++ (postRecord_model JSON_parse (post_reply (connector this)) (length h)).2)
             (t ++ [first_line POST (post_reply (connector this))])).
Proof. intros He. exact (record_method_no_error POST this callback h t He). Qed.

Lemma record_model_frame m r n :
  length (record_model JSON_parse m r n).2 = length (entry_heap m).
Proof.
  destruct m; cbn; [unfold getRecord_model | unfold postRecord_model];
    repeat first [done | case_match].
Qed.

(** ** What every run has in common *)

Lemma record_model_on_error m r n :
  truthy (error r) = true ->
  (record_model JSON_parse m r n).1 = Calls (error r).
Proof.
  intros He. destruct m; cbn; [unfold getRecord_model | unfold postRecord_model];
    by rewrite He.
Qed.

(** The three ways a record operation ends, for a reply [r] and a heap [h]
    found on entry. *)
Lemma record_method_ends m this h t :
  let r := reply_of m (connector this) in
  exists frame,
    length frame = length (entry_heap m) /\
    ((exists v line,
        (line = error_log m \/ line = response_log m) /\
        forall callback : callback_fn,
          record_method JSON_parse stringifiable m this callback (mkState h t) =
          callback [v] (mkState (h ++ frame) (t ++ [line])))
     \/
     (exists e lines,
        (lines = [] \/ lines = [response_log m]) /\
        forall callback : callback_fn,
          record_method JSON_parse stringifiable m this callback (mkState h t) =
          (Throw e, mkState (h ++ frame) (t ++ lines)))).
Proof.
  intros r.
  destruct (rejects stringifiable m r h) eqn:Hrej.
  { exists (entry_heap m). split; [done|]. right. exists TypeError, [].
    split; [by left|]. intros callback.
    rewrite record_method_refines. fold r. rewrite Hrej. by rewrite app_nil_r. }
  exists (record_model JSON_parse m r (length h)).2.
  split; [apply record_model_frame|].
  destruct (record_model JSON_parse m r (length h)).1 as [v|e] eqn:Hvd.
  - left. exists v, (first_line m r). split.
    + unfold first_line. destruct (truthy _); [by left | by right].
    + intros callback. rewrite record_method_refines. fold r. by rewrite Hrej, Hvd.
  - right. exists e, [first_line m r]. split.
    + right. unfold first_line. destruct (truthy (error r)) eqn:He; [|done].
      by rewrite record_model_on_error in Hvd.
    + intros callback. rewrite record_method_refines. fold r. by rewrite Hrej, Hvd.
Qed.


(** X2. Whatever the connector replies, a probe never notifies an OFFLINE
    listener.  It raises exactly when [getRecord] does, before any status
    event; otherwise it emits ONLINE once and then hands the optional
    callback the one value [getRecord] delivers. *)
Theorem probe_never_emits_OFFLINE
    (this : ServiceNowAdapter) (callback : option callback_fn) (s : state) :
  exists frame,
    length frame = 4 /\
    ((exists e lines,
        (lines = [] \/ lines = [response_log GET]) /\
        (forall k : callback_fn,
           getRecord JSON_parse stringifiable this k s =
           (Throw e, mkState (heap s ++ frame) (trace s ++ lines))) /\
        healthcheck JSON_parse stringifiable this callback s =
        (Throw e, mkState (heap s ++ frame) (trace s ++ lines)))
     \/
     (exists v line,
        (line = error_log GET \/ line = response_log GET) /\
        (forall k : callback_fn,
           getRecord JSON_parse stringifiable this k s =
           k [v] (mkState (heap s ++ frame) (trace s ++ [line]))) /\
        healthcheck JSON_parse stringifiable this callback s =
        match callback with
        | Some cb => cb [v]
        | None => ret tt
        end
          (mkState (heap s ++ frame ++ [ObjIdentity (id this)])
                   (trace s
                      ++ [line; EvLog log_info "ServiceNow Adapter: ONLINE";
                          EvLog log_info "Why me?"]
                      ++ map (fun l => EvNotify l "ONLINE" (Ref (length (heap s) + 4)))
                             (EventEmitter.subscribers "ONLINE" (listeners this))
                      ++ [EvLog log_info "ServiceNow: Instance is available."])))).
Proof.
  destruct s as [h t].
  destruct (record_method_ends GET this h t) as (frame & Hlen & Hends).
  cbn [record_method entry_heap length] in Hlen, Hends.
  exists frame. split; [done|].
  destruct Hends as [(v & line & Hline & Hrun)|(e & lines & Hlines & Hrun)].
  - right. exists v, line. split; [done|]. split; [done|].
    unfold healthcheck. rewrite Hrun.
    cbn -[bind]. unfold log, tell, bind at 1. cbn -[bind].
    unfold bind at 1. rewrite emitOnline_run.
    rewrite <- !app_assoc, !length_app, Hlen. cbn.
    reflexivity.
  - left. exists e, lines. split; [done|]. split; [done|].
    unfold healthcheck. by rewrite Hrun.
Qed.

(** ** When the callback is reached *)




(** ** Edges of the input *)

Lemma loop_model_null_entry n before after r es :
  Forall (fun item => item <> JNull) before ->
  loop_model n (before ++ JNull :: after) r es =
  (Some TypeError, last_normalized before r, es ++ repeat (Ref n) (length before)).
Proof.
  intros Hb. revert r es. induction Hb as [|item before Hitem _ IH]; intros r es.
  - cbn. by rewrite app_nil_r.
  - cbn [app]. rewrite loop_model_cons, IH by done.
    unfold last_normalized. cbn. by rewrite <- app_assoc.
Qed.

(** X5. When the [result] of a successful GET response is not a list (a
    single object, a string, [null], ...), [getRecord] ends in a TypeError
    at [forEach]: nothing is pushed and the callback is never called. *)
Theorem getRecord_result_not_a_list
    (this : ServiceNowAdapter) (callback : callback_fn) (s : state)
    (text : string) (ms : list (string * json)) (v : json) :
  truthy (error (get_reply (connector this))) = false ->
  data (get_reply (connector this)) = Some (mkResponse (Some text)) ->
  JSON_parse text = Some (JObject ms) ->
  assoc "hasOwnProperty" ms = None ->
  assoc "result" ms = Some v ->
  (forall items, v <> JArray items) ->
  getRecord JSON_parse stringifiable this callback s =
  (Throw TypeError, mkState (heap s ++ entry_heap GET) (trace s ++ [response_log GET])).
Proof.
  intros He Hd Hp Hs Hr Hv. destruct s as [h t].
  rewrite getRecord_no_error by done. unfold getRecord_model, first_line.
  rewrite He, Hd, Hp. cbn. rewrite Hs, Hr.
  destruct v; try reflexivity. by edestruct Hv.
Qed.

(** X6. A [null] entry in the GET result list ends [getRecord] in a
    TypeError at that entry: the entries before it have already been
    written through the template and pushed, the entries after it are never
    looked at, and the callback is never called. *)
Theorem getRecord_stops_at_null_entry
    (this : ServiceNowAdapter) (callback : callback_fn) (s : state)
    (text : string) (ms : list (string * json)) (before after : list json) :
  truthy (error (get_reply (connector this))) = false ->
  data (get_reply (connector this)) = Some (mkResponse (Some text)) ->
  JSON_parse text = Some (JObject ms) ->
  assoc "hasOwnProperty" ms = None ->
  assoc "result" ms = Some (JArray (before ++ JNull :: after)) ->
  Forall (fun item => item <> JNull) before ->
  getRecord JSON_parse stringifiable this callback s =
  (Throw TypeError,
   mkState (heap s ++ [ObjRecord (last_normalized before null_record);
                       ObjEmpty; ObjEmpty;
                       ObjArray (repeat (Ref (length (heap s))) (length before))])
           (trace s ++ [response_log GET])).
Proof.
  intros He Hd Hp Hs Hr Hb. destruct s as [h t].
  rewrite getRecord_no_error by done. unfold getRecord_model, first_line.
  rewrite He, Hd, Hp. cbn. rewrite Hs, Hr.
  by rewrite loop_model_null_entry.
Qed.

(** X7. When the [result] of a successful POST response is [null],
    [postRecord] ends in a TypeError at the first member read; the record
    stays all-null and the callback is never called. *)
Theorem postRecord_null_result
    (this : ServiceNowAdapter) (callback : callback_fn) (s : state)
    (text : string) (ms : list (string * json)) :
  truthy (error (post_reply (connector this))) = false ->
  data (post_reply (connector this)) = Some (mkResponse (Some text)) ->
  JSON_parse text = Some (JObject ms) ->
  assoc "hasOwnProperty" ms = None ->
  assoc "result" ms = Some JNull ->
  postRecord JSON_parse stringifiable this callback s =
  (Throw TypeError, mkState (heap s ++ entry_heap POST) (trace s ++ [response_log POST])).
Proof.
  intros He Hd Hp Hs Hr. destruct s as [h t].
  rewrite postRecord_no_error by done. unfold postRecord_model, first_line.
  rewrite He, Hd, Hp. cbn. by rewrite Hs, Hr.
Qed.

(** X8. When the connector calls back with neither an error nor a payload
    ([data] is [null] and [error] is falsy), [getRecord] and [postRecord]
    log the response line and end in a TypeError at
    [data.hasOwnProperty]; the callback is never called. *)
Theorem null_payload_TypeError
    (m : method) (this : ServiceNowAdapter) (callback : callback_fn) (s : state) :
  truthy (error (reply_of m (connector this))) = false ->
  data (reply_of m (connector this)) = None ->
  record_method JSON_parse stringifiable m this callback s =
  (Throw TypeError, mkState (heap s ++ entry_heap m) (trace s ++ [response_log m])).
Proof.
  intros He Hd. destruct s as [h t].
  rewrite record_method_no_error by done. unfold first_line. rewrite He.
  destruct m; cbn in He, Hd |- *;
    [unfold getRecord_model | unfold postRecord_model]; by rewrite He, Hd.
Qed.

(** X9. An error argument that is falsy ([null], [undefined], [false], [0]
    or the empty string) counts as no error: it is not forwarded, and the
    run is the one [data] alone determines. *)
Theorem falsy_error_counts_as_success
    (m : method) (this this' : ServiceNowAdapter) (callback : callback_fn) (s : state) :
  truthy (error (reply_of m (connector this))) = false ->
  truthy (error (reply_of m (connector this'))) = false ->
  data (reply_of m (connector this)) = data (reply_of m (connector this')) ->
  record_method JSON_parse stringifiable m this callback s =
  record_method JSON_parse stringifiable m this' callback s.
Proof.
  intros He He' Hd. destruct s as [h t].
  rewrite !record_method_no_error by done. unfold first_line. rewrite He, He'.
  destruct m; cbn in He, He', Hd |- *;
    [unfold getRecord_model | unfold postRecord_model]; by rewrite He, He', Hd.
Qed.

Lemma loop_model_output n items r es :
  (loop_model n items r es).1.1 = None ->
  (loop_model n items r es).2 = es ++ repeat (Ref n) (length items).
Proof.
  revert r es. induction items as [|item items IH]; intros r es.
  - cbn. by rewrite app_nil_r.
  - assert (item = JNull \/ item <> JNull) as [->|Hitem]
      by (destruct item; [by left|by right..]); [done|].
    rewrite loop_model_cons by done. intros Hn. rewrite IH by done.
    cbn. by rewrite <- app_assoc.
Qed.

(** X11. Records and sentinels never share the output array: when
    [getRecord] ends normally after a successful reply, the array it handed
    over holds either exactly one sentinel string, or only references to the
    one template record (none, for an empty result list). *)
Theorem output_array_is_uniform
    (this : ServiceNowAdapter) (s s' : state) :
  truthy (error (get_reply (connector this))) = false ->
  getRecord JSON_parse stringifiable this observer s = (Done tt, s') ->
  exists r es,
    s' = mkState (heap s ++ [ObjRecord r; ObjEmpty; ObjEmpty; ObjArray es])
                 (trace s ++ [response_log GET;
                              EvCallback [Ref (length (heap s) + 3)]]) /\
    (es = [Missing_Data_Body] \/ es = [Missing_Data_Results] \/
     exists k, es = repeat (Ref (length (heap s))) k).
Proof.
  intros He. destruct s as [h t].
  rewrite getRecord_no_error by done. unfold getRecord_model, first_line. rewrite He.
  destruct (data (get_reply (connector this))) as [[[text|]]|]; try discriminate.
  - destruct (JSON_parse text) as [j|]; try discriminate.
    destruct (inherits_hasOwnProperty j); try discriminate.
    destruct (result_member j) as [[| | | |items|]|]; try discriminate.
    + pose proof (loop_model_output (length h) items null_record []) as Hout.
      destruct (loop_model (length h) items null_record []) as [[[e|] r'] es];
        try discriminate.
      cbn. intros [= <-]. exists r', es. split.
      * by rewrite <- app_assoc.
      * right. right. exists (length items). by apply Hout.
    + cbn. intros [= <-]. eexists _, _. split; [by rewrite <- app_assoc|]. auto.
  - cbn. intros [= <-]. eexists _, _. split; [by rewrite <- app_assoc|]. auto.
Qed.

End Outcomes.

(** ** Status events *)

(** X10. Every emission builds its own identity object: [emitOnline]
    followed by [emitOffline] leaves two objects at two addresses, both
    holding the adapter's id; the ONLINE listeners are handed the first, the
    OFFLINE listeners the second, and neither call reaches the listeners of
    the other status. *)
Theorem each_emission_has_its_own_identity (this : ServiceNowAdapter) (s : state) :
  (emitOnline this ;; emitOffline this) s =
  (Done tt,
   mkState (heap s ++ [ObjIdentity (id this); ObjIdentity (id this)])
           (trace s
              ++ EvLog log_info "Why me?"
              :: map (fun l => EvNotify l "ONLINE" (Ref (length (heap s))))
                     (EventEmitter.subscribers "ONLINE" (listeners this))
              ++ EvLog log_info "ServiceNow: Instance is available."
              :: EvLog log_info "Why me?"
              :: map (fun l => EvNotify l "OFFLINE" (Ref (length (heap s) + 1)))
                     (EventEmitter.subscribers "OFFLINE" (listeners this))
              ++ [EvLog log_warn "ServiceNow: Instance is unavailable."])).
Proof.
  destruct s as [h t]. unfold bind.
  rewrite emitOnline_run, emitOffline_run.
  rewrite length_app. cbn.
  rewrite <- !app_assoc. cbn. by rewrite <- !app_assoc.
Qed.

(** ** The further statements at the sample data *)



(** A single object where GET expects a list. *)
Lemma getRecord_result_not_a_list_witness :
  getRecord sample_parse sample_stringifiable (sample_adapter (success (stringify created_body))) observer
            start =
  (Throw TypeError, mkState (entry_heap GET) [response_log GET]).
Proof.
  refine (getRecord_result_not_a_list sample_parse sample_stringifiable
            (sample_adapter (success (stringify created_body))) observer start
            (stringify created_body) _ CHG01 eq_refl eq_refl eq_refl eq_refl eq_refl _).
  intros items. discriminate.
Defined.

(** [CHG1], [null], [CHG3]: the run stops at the second entry with one
    entry pushed. *)
Lemma getRecord_stops_at_null_entry_witness :
  getRecord extended_parse sample_stringifiable (sample_adapter (success (stringify null_entry_body))) observer
            start =
  (Throw TypeError,
   mkState [ObjRecord (normalize (JObject [("number", JString "CHG1")]));
            ObjEmpty; ObjEmpty; ObjArray [Ref 0]]
           [response_log GET]).
Proof.
  refine (getRecord_stops_at_null_entry extended_parse sample_stringifiable
            (sample_adapter (success (stringify null_entry_body))) observer start
            (stringify null_entry_body) _
            [JObject [("number", JString "CHG1")]]
            [JObject [("number", JString "CHG3")]]
            eq_refl eq_refl eq_refl eq_refl eq_refl _).
  repeat (constructor; [discriminate|]). constructor.
Defined.

Lemma postRecord_null_result_witness :
  postRecord extended_parse sample_stringifiable (sample_adapter (success (stringify null_result_body)))
             observer start =
  (Throw TypeError, mkState (entry_heap POST) [response_log POST]).
Proof.
  exact (postRecord_null_result extended_parse sample_stringifiable
           (sample_adapter (success (stringify null_result_body))) observer start
           (stringify null_result_body) _ eq_refl eq_refl eq_refl eq_refl eq_refl).
Defined.

Lemma null_payload_TypeError_witness :
  getRecord sample_parse sample_stringifiable (sample_adapter (mkReply None null)) observer start =
  (Throw TypeError, mkState (entry_heap GET) [response_log GET]).
Proof.
  exact (null_payload_TypeError sample_parse sample_stringifiable GET (sample_adapter (mkReply None null))
           observer start eq_refl eq_refl).
Defined.

(** The empty string as error, with a bodiless response: the run is the
    one of the bodiless response without error. *)
Lemma falsy_error_counts_as_success_witness :
  getRecord sample_parse sample_stringifiable
            (sample_adapter (mkReply (Some (mkResponse None)) (Data (JString ""))))
            observer start =
  getRecord sample_parse sample_stringifiable (sample_adapter bodiless) observer start.
Proof.
  exact (falsy_error_counts_as_success sample_parse sample_stringifiable GET
           (sample_adapter (mkReply (Some (mkResponse None)) (Data (JString ""))))
           (sample_adapter bodiless) observer start eq_refl eq_refl eq_refl).
Defined.

(** Two records: the array holds the template reference twice and nothing
    else. *)
Lemma output_array_is_uniform_witness :
  exists r es,
    mkState [ObjRecord (normalize (JObject [("number", JString "CHG2")]));
             ObjEmpty; ObjEmpty; ObjArray [Ref 0; Ref 0]]
            [response_log GET; EvCallback [Ref 3]] =
    mkState ([] ++ [ObjRecord r; ObjEmpty; ObjEmpty; ObjArray es])
            ([] ++ [response_log GET; EvCallback [Ref 3]]) /\
    (es = [Missing_Data_Body] \/ es = [Missing_Data_Results] \/
     exists k, es = repeat (Ref 0) k).
Proof.
  refine (output_array_is_uniform sample_parse sample_stringifiable
            (sample_adapter (success (stringify listed_body))) start
            (mkState [ObjRecord (normalize (JObject [("number", JString "CHG2")]));
                      ObjEmpty; ObjEmpty; ObjArray [Ref 0; Ref 0]]
                     [response_log GET; EvCallback [Ref 3]])
            eq_refl _).
  vm_compute. reflexivity.
Defined.

(** The array that contains itself, reported as the error of a POST. *)
Lemma unserializable_error_throws_witness :
  postRecord sample_parse sample_stringifiable (sample_adapter cyclic_failure) observer
             cyclic_start =
  (Throw TypeError, mkState ([ObjArray [Ref 0]] ++ entry_heap POST) []).
Proof.
  exact (unserializable_error_throws sample_parse sample_stringifiable POST
           (sample_adapter cyclic_failure) observer [ObjArray [Ref 0]] [] eq_refl eq_refl).
Defined.
